(** * Home Assistant sensor platforms: DSMR smart meter and Rflink

    A shallow embedding of
    - [homeassistant/components/sensor/dsmr.py]   (module [Dsmr])
    - [homeassistant/components/sensor/rflink.py] (module [Rflink])

    Python objects are records of the attribute values visible through
    [self]; dictionaries are finite maps; properties that assign to [self]
    return the updated object next to their result; a raised exception is
    a [Raise] result. *)

From Stdlib Require Import ZArith.
From stdpp Require Import gmap strings list fin_maps.

Local Open Scope Z_scope.

(** ** Python values *)

(** The values the two platforms read from telegrams and packets: [None],
    numbers (meter readings, taken as exact integers of the meter's
    smallest step), strings, and the [datetime] / [timedelta] pair (a point
    in time and a span, both counted in seconds). *)
Inductive pyval : Type :=
| VNone
| VInt (n : Z)
| VStr (s : string)
| VDatetime (t : Z)
| VTimedelta (d : Z).

#[global] Instance pyval_eq_dec : EqDecision pyval.
Proof. solve_decision. Defined.

Inductive exn : Type :=
| TypeError.

Inductive result (A : Type) : Type :=
| Ok (a : A)
| Raise (e : exn).
Arguments Ok {A} a.
Arguments Raise {A} e.

(** [bool(v)]: what [if v:] tests. *)
Definition truthy (v : pyval) : bool :=
  match v with
  | VNone => false
  | VInt n => negb (n =? 0)
  | VStr s => negb (bool_decide (s = ""%string))
  | VDatetime _ => true
  | VTimedelta d => negb (d =? 0)
  end.

(** [a == b] and [a != b]. No two values of different constructors are
    equal in Python either (an [int] never equals a [str] or a
    [datetime]). *)
Definition py_eq (a b : pyval) : bool := bool_decide (a = b).
Definition py_ne (a b : pyval) : bool := negb (py_eq a b).

(** [a - b]. *)
Definition py_sub (a b : pyval) : result pyval :=
  match a, b with
  | VInt x, VInt y => Ok (VInt (x - y))
  | VDatetime x, VDatetime y => Ok (VTimedelta (x - y))
  | VDatetime x, VTimedelta y => Ok (VDatetime (x - y))
  | VTimedelta x, VTimedelta y => Ok (VTimedelta (x - y))
  | _, _ => Raise TypeError
  end.

(** [a + b]. *)
Definition py_add (a b : pyval) : result pyval :=
  match a, b with
  | VInt x, VInt y => Ok (VInt (x + y))
  | VStr x, VStr y => Ok (VStr (x ++ y))
  | VDatetime x, VTimedelta y => Ok (VDatetime (x + y))
  | VTimedelta x, VDatetime y => Ok (VDatetime (x + y))
  | VTimedelta x, VTimedelta y => Ok (VTimedelta (x + y))
  | _, _ => Raise TypeError
  end.

(** Modelled from the spec: [homeassistant.const.STATE_UNKNOWN] is not
    among the sources; the spec names the sentinel "unknown". *)
Definition STATE_UNKNOWN : string := "unknown".

(** ** sensor/dsmr.py *)
Module Dsmr.

(** [getattr(o, attribute, None)] on an object given by its attributes. *)
Definition getattr_or_None (o : gmap string pyval) (attribute : string) : pyval :=
  default VNone (o !! attribute).

(** An instance of [DSMREntity], as [__init__] leaves it and
    [update_entities_telegram] updates it. [telegram] maps an obis
    reference to the parsed object of that line. *)
Record DSMREntity : Type := mkDSMREntity {
  _name : string;
  _obis : string;
  telegram : gmap string (gmap string pyval);
  _state : pyval
}.

(** An instance of [DerivativeDSMREntity(DSMREntity)]: the inherited
    attributes and the two of its own. *)
Record DerivativeDSMREntity : Type := mkDerivativeDSMREntity {
  super : DSMREntity;
  _previous_reading : pyval;
  _previous_timestamp : pyval
}.

#[global] Instance DSMREntity_eq_dec : EqDecision DSMREntity.
Proof. solve_decision. Defined.
#[global] Instance DerivativeDSMREntity_eq_dec : EqDecision DerivativeDSMREntity.
Proof. solve_decision. Defined.

(** [DSMREntity.__init__]. *)
Definition DSMREntity_init (name obis : string) : DSMREntity :=
  {| _name := name; _obis := obis; telegram := ∅; _state := VInt 10 |}.

(** The attributes the class body of [DerivativeDSMREntity] declares;
    an instance shows them until it assigns its own. *)
Definition class_previous_reading : pyval := VNone.
Definition class_previous_timestamp : pyval := VNone.
Definition class_state : pyval := VStr STATE_UNKNOWN.

(** [DerivativeDSMREntity(name, obis)]: the class has no [__init__] of its
    own, so the inherited one runs and assigns [self._state], which from
    then on hides the class attribute [_state]. *)
Definition DerivativeDSMREntity_init (name obis : string) : DerivativeDSMREntity :=
  {| super := DSMREntity_init name obis;
     _previous_reading := class_previous_reading;
     _previous_timestamp := class_previous_timestamp |}.

(** [device.telegram = telegram] in [update_entities_telegram]. *)
Definition set_telegram (tg : gmap string (gmap string pyval)) (self : DSMREntity)
  : DSMREntity :=
  {| _name := _name self; _obis := _obis self; telegram := tg;
     _state := _state self |}.

Definition set_telegram_d (tg : gmap string (gmap string pyval))
  (self : DerivativeDSMREntity) : DerivativeDSMREntity :=
  {| super := set_telegram tg (super self);
     _previous_reading := _previous_reading self;
     _previous_timestamp := _previous_timestamp self |}.

Definition get_dsmr_object_attr (self : DSMREntity) (attribute : string) : pyval :=
  match telegram self !! _obis self with
  | None => VNone
  | Some dsmr_object => getattr_or_None dsmr_object attribute
  end.

Definition translate_tariff (value : pyval) : pyval :=
  if py_eq value (VStr "0002") then VStr "normal"
  else if py_eq value (VStr "0001") then VStr "low"
  else VStr STATE_UNKNOWN.

Section WithObis.

(** [dsmr_parser.obis_references.ELECTRICITY_ACTIVE_TARIFF], a constant of
    the parser library. *)
Variable ELECTRICITY_ACTIVE_TARIFF : string.

(** [DSMREntity.state]. *)
Definition DSMREntity_state (self : DSMREntity) : pyval :=
  let value := get_dsmr_object_attr self "value" in
  if bool_decide (_obis self = ELECTRICITY_ACTIVE_TARIFF) then
    translate_tariff value
  else
    if truthy value then value else VStr STATE_UNKNOWN.

End WithObis.

(** [DSMREntity.unit_of_measurement]. *)
Definition DSMREntity_unit_of_measurement (self : DSMREntity) : pyval :=
  get_dsmr_object_attr self "unit".

(** [self._state = v] on a derivative entity. *)
Definition set_state (v : pyval) (self : DSMREntity) : DSMREntity :=
  {| _name := _name self; _obis := _obis self; telegram := telegram self;
     _state := v |}.

(** [DerivativeDSMREntity.state]: the value returned (or the exception
    raised) and the entity afterwards. *)
Definition DerivativeDSMREntity_state (self : DerivativeDSMREntity)
  : result pyval * DerivativeDSMREntity :=
  let timestamp := get_dsmr_object_attr (super self) "datetime" in
  if truthy timestamp && py_ne timestamp (_previous_timestamp self) then
    let current_reading := get_dsmr_object_attr (super self) "value" in
    if py_eq (_previous_reading self) VNone then
      (Ok (_state (super self)),
       {| super := super self;
          _previous_reading := current_reading;
          _previous_timestamp := timestamp |})
    else
      match py_sub current_reading (_previous_reading self) with
      | Raise e => (Raise e, self)
      | Ok diff =>
          (Ok diff,
           {| super := set_state diff (super self);
              _previous_reading := current_reading;
              _previous_timestamp := timestamp |})
      end
  else (Ok (_state (super self)), self).

(** [DerivativeDSMREntity.unit_of_measurement]; falling off the end of
    the function returns [None]. *)
Definition DerivativeDSMREntity_unit_of_measurement (self : DerivativeDSMREntity)
  : result pyval :=
  let unit := get_dsmr_object_attr (super self) "unit" in
  if truthy unit then py_add unit (VStr "/h") else Ok VNone.

(** [update_entities_telegram] for each telegram in turn, each followed by
    the read of [state] that [async_update_ha_state] makes: the values
    read. *)
Fixpoint poll (self : DerivativeDSMREntity)
  (telegrams : list (gmap string (gmap string pyval))) : list (result pyval) :=
  match telegrams with
  | [] => []
  | tg :: rest =>
      let '(r, self') := DerivativeDSMREntity_state (set_telegram_d tg self) in
      r :: poll self' rest
  end.

(** A telegram whose only line is a gas reading [v] taken at [t]. *)
Definition gas_telegram (obis : string) (t : Z) (v : Z)
  : gmap string (gmap string pyval) :=
  {[ obis := {[ "datetime"%string := VDatetime t;
                "value"%string := VInt v;
                "unit"%string := VStr "m3" ]} ]}.

(** A telegram whose only line carries the attribute [unit] alone. *)
Definition unit_telegram (obis : string) (unit : pyval)
  : gmap string (gmap string pyval) :=
  {[ obis := {[ "unit"%string := unit ]} ]}.

Definition ICON_GAS : string := "mdi:fire".
Definition ICON_POWER : string := "mdi:flash".

(** [needle in haystack] on two [str]: the needle starts at some
    position of the haystack. *)
Fixpoint str_in (needle haystack : string) : bool :=
  String.prefix needle haystack
  || match haystack with
     | EmptyString => false
     | String _ rest => str_in needle rest
     end.

(** [DSMREntity.name]. *)
Definition DSMREntity_name (self : DSMREntity) : string := _name self.

(** [DSMREntity.icon]; no branch taken returns [None]. *)
Definition DSMREntity_icon (self : DSMREntity) : pyval :=
  if str_in "Power" (_name self) then VStr ICON_POWER
  else if str_in "Gas" (_name self) then VStr ICON_GAS
  else VNone.

(** The constants of [dsmr_parser.obis_references] that
    [async_setup_platform] reads. *)
Record obis_references : Type := mkObis {
  CURRENT_ELECTRICITY_USAGE : string;
  CURRENT_ELECTRICITY_DELIVERY : string;
  ELECTRICITY_ACTIVE_TARIFF : string;
  ELECTRICITY_USED_TARIFF_1 : string;
  ELECTRICITY_USED_TARIFF_2 : string;
  ELECTRICITY_DELIVERED_TARIFF_1 : string;
  ELECTRICITY_DELIVERED_TARIFF_2 : string;
  HOURLY_GAS_METER_READING : string;
  GAS_METER_READING : string
}.

(** An element of the list [devices]: an instance of one of the two
    classes. *)
Inductive entity : Type :=
| Plain (e : DSMREntity)
| Derivative (d : DerivativeDSMREntity).

(** The inherited part of either. *)
Definition entity_base (device : entity) : DSMREntity :=
  match device with
  | Plain e => e
  | Derivative d => super d
  end.

(** [device.name], [device.icon], [device.unit_of_measurement] and
    [device.state], by the class of the instance. *)
Definition entity_name (device : entity) : string :=
  DSMREntity_name (entity_base device).

Definition entity_icon (device : entity) : pyval :=
  DSMREntity_icon (entity_base device).

Definition entity_unit_of_measurement (device : entity) : result pyval :=
  match device with
  | Plain e => Ok (DSMREntity_unit_of_measurement e)
  | Derivative d => DerivativeDSMREntity_unit_of_measurement d
  end.

Definition entity_state (obis : obis_references) (device : entity)
  : result pyval * entity :=
  match device with
  | Plain e => (Ok (DSMREntity_state (ELECTRICITY_ACTIVE_TARIFF obis) e), device)
  | Derivative d =>
      let '(r, d') := DerivativeDSMREntity_state d in (r, Derivative d')
  end.

(** The list [obis_mapping] of [async_setup_platform]. *)
Definition obis_mapping (obis : obis_references) : list (string * string) :=
  [ ("Power Consumption", CURRENT_ELECTRICITY_USAGE obis);
    ("Power Production", CURRENT_ELECTRICITY_DELIVERY obis);
    ("Power Tariff", ELECTRICITY_ACTIVE_TARIFF obis);
    ("Power Consumption (low)", ELECTRICITY_USED_TARIFF_1 obis);
    ("Power Consumption (normal)", ELECTRICITY_USED_TARIFF_2 obis);
    ("Power Production (low)", ELECTRICITY_DELIVERED_TARIFF_1 obis);
    ("Power Production (normal)", ELECTRICITY_DELIVERED_TARIFF_2 obis) ]%string.

(** The list [devices] that [async_setup_platform] builds and hands to
    [async_add_devices], for the configured [dsmr_version]. *)
Definition async_setup_platform (obis : obis_references) (dsmr_version : string)
  : list entity :=
  let devices :=
    map (λ item : string * string, Plain (DSMREntity_init item.1 item.2))
      (obis_mapping obis) in
  let gas_obis :=
    if bool_decide (dsmr_version = "4"%string)
    then HOURLY_GAS_METER_READING obis
    else GAS_METER_READING obis in
  devices ++
  [ Plain (DSMREntity_init "Gas Consumption" gas_obis);
    Derivative (DerivativeDSMREntity_init "Hourly Gas Consumption" gas_obis) ].

(** [update_entities_telegram]: every device gets the telegram (and one
    [async_update_ha_state] job, in the same order). *)
Definition update_entities_telegram (devices : list entity)
  (tg : gmap string (gmap string pyval)) : list entity :=
  map (λ device,
         match device with
         | Plain e => Plain (set_telegram tg e)
         | Derivative d => Derivative (set_telegram_d tg d)
         end) devices.

(** The differences of successive readings. *)
Fixpoint deltas (previous : Z) (readings : list Z) : list Z :=
  match readings with
  | [] => []
  | v :: rest => (v - previous) :: deltas v rest
  end.

(** No two successive timestamps are the same. *)
Fixpoint all_fresh (previous : Z) (timestamps : list Z) : Prop :=
  match timestamps with
  | [] => True
  | t :: rest => previous ≠ t ∧ all_fresh t rest
  end.

End Dsmr.

(** ** sensor/rflink.py *)
Module Rflink.

(** The module-level table, in the order it is written. *)
Definition SENSOR_KEYS_AND_UNITS : list (string * string) :=
  [("temperature", "°C"); ("humidity", "%")]%string.

(** An instance of [RflinkSensor], by the arguments of its constructor
    ([hass] apart). *)
Record RflinkSensor : Type := mkRflinkSensor {
  _device_id : string;
  _value_key : string;
  _unit : string
}.

#[global] Instance RflinkSensor_eq_dec : EqDecision RflinkSensor.
Proof. solve_decision. Defined.

(** [RflinkSensor.unit_of_measurement]. *)
Definition unit_of_measurement (self : RflinkSensor) : string := _unit self.

(** What the platform holds between two bus events: the module-level list
    [KNOWN_DEVICE_IDS] and the group of [async_setup_platform]
    ([None] when [new_devices_group] is not configured, otherwise the
    entity ids the group tracks). *)
Record platform : Type := mkPlatform {
  KNOWN_DEVICE_IDS : list string;
  new_devices_group : option (list string)
}.

(** The calls [add_new_device] makes on its collaborators, in order. *)
Inductive call : Type :=
| Async_add_devices (devices : list RflinkSensor)
| Match_packet (device : RflinkSensor) (packet : gmap string pyval)
| Async_update_tracked_entity_ids (ids : list string).

(** The body of the loop over [SENSOR_KEYS_AND_UNITS.items()]:
    a sensor is appended for each key that is in the packet. *)
Fixpoint create_entities (device_id : string) (packet : gmap string pyval)
  (items : list (string * string)) (devices : list RflinkSensor)
  : list RflinkSensor :=
  match items with
  | [] => devices
  | (sensor_key, unit) :: items' =>
      create_entities device_id packet items'
        (if bool_decide (is_Some (packet !! sensor_key))
         then devices ++ [mkRflinkSensor device_id sensor_key unit]
         else devices)
  end.

(** What one turn of that loop appends, if anything. *)
Definition entity_for (device_id : string) (packet : gmap string pyval)
  (item : string * string) : option RflinkSensor :=
  if bool_decide (is_Some (packet !! item.1))
  then Some (mkRflinkSensor device_id item.1 item.2)
  else None.

#[global] Instance call_eq_dec : EqDecision call.
Proof. solve_decision. Defined.

Section WithRflink.

(** [rflink.serialize_id], of the rflink component. *)
Variable serialize_id : gmap string pyval → string.
(** The [entity_id] an entity has once it is added. *)
Variable entity_id : RflinkSensor → string.

(** One run of the listener [add_new_device] on the packet of an event:
    the platform afterwards and the calls made. The membership test and
    the append come before the first [yield from], so no other run can come
    between them.

    Modelled from the spec: [Group.async_update_tracked_entity_ids] is not
    among the sources; the grouping service takes the list of entity ids
    now tracked, which [tracking] then shows. *)
Definition add_new_device (st : platform) (packet : gmap string pyval)
  : platform * list call :=
  let device_id := serialize_id packet in
  if bool_decide (device_id ∉ KNOWN_DEVICE_IDS st) then
    let known := KNOWN_DEVICE_IDS st ++ [device_id] in
    let devices := create_entities device_id packet SENSOR_KEYS_AND_UNITS [] in
    let calls :=
      Async_add_devices devices :: map (λ device, Match_packet device packet) devices in
    match new_devices_group st with
    | Some tracking =>
        let ids := tracking ++ map entity_id devices in
        (mkPlatform known (Some ids),
         calls ++ [Async_update_tracked_entity_ids ids])
    | None => (mkPlatform known None, calls)
    end
  else (st, []).

(** The listener on a sequence of events: the platform at the end and the
    calls of each run. *)
Fixpoint listen (st : platform) (packets : list (gmap string pyval))
  : platform * list (list call) :=
  match packets with
  | [] => (st, [])
  | packet :: rest =>
      let '(st1, calls) := add_new_device st packet in
      let '(st2, more) := listen st1 rest in
      (st2, calls :: more)
  end.

End WithRflink.

(** An [RflinkSensor] with the [_state] it holds. *)
Record RflinkSensorState : Type := mkRflinkSensorState {
  sensor : RflinkSensor;
  _state : pyval
}.

(** What a call of [_handle_packet] ends in: the sensor afterwards, or the
    [KeyError] of the subscript. *)
Inductive handled : Type :=
| Handled (self' : RflinkSensorState)
| KeyError.

(** [RflinkSensor._handle_packet]. *)
Definition _handle_packet (self : RflinkSensorState) (packet : gmap string pyval)
  : handled :=
  match packet !! _value_key (sensor self) with
  | Some v => Handled (mkRflinkSensorState (sensor self) v)
  | None => KeyError
  end.

(** [RflinkSensor.state]. *)
Definition state (self : RflinkSensorState) : pyval := _state self.

(** The entities a run handed to [async_add_devices]. *)
Definition created (calls : list call) : list RflinkSensor :=
  concat (omap (λ c, match c with Async_add_devices ds => Some ds | _ => None end) calls).

(** The [match_packet] calls of a run: the entity and the packet of each. *)
Definition matched (calls : list call) : list (RflinkSensor * gmap string pyval) :=
  omap (λ c, match c with Match_packet d p => Some (d, p) | _ => None end) calls.

(** The lists a run passed to [async_update_tracked_entity_ids]. *)
Definition group_updates (calls : list call) : list (list string) :=
  omap (λ c, match c with Async_update_tracked_entity_ids ids => Some ids | _ => None end)
    calls.

End Rflink.

(** * Properties *)

Lemma py_ne_refl v : py_ne v v = false.
Proof. unfold py_ne, py_eq. by rewrite bool_decide_eq_true_2. Qed.

Lemma py_ne_true a b : py_ne a b = true ↔ a ≠ b.
Proof.
  unfold py_ne, py_eq. rewrite negb_true_iff, bool_decide_eq_false. done.
Qed.

Lemma truthy_not_None v : truthy v = true → v ≠ VNone.
Proof. by destruct v. Qed.


(** ** Properties of sensor/dsmr.py *)
Module DsmrSpec.
Import Dsmr.

Lemma get_attr_missing self attribute :
  telegram self !! _obis self = None → get_dsmr_object_attr self attribute = VNone.
Proof. intros H. unfold get_dsmr_object_attr. by rewrite H. Qed.

Lemma get_attr_gas obis t v (self : DSMREntity) :
  _obis self = obis →
  get_dsmr_object_attr (set_telegram (gas_telegram obis t v) self) "datetime"
    = VDatetime t
  ∧ get_dsmr_object_attr (set_telegram (gas_telegram obis t v) self) "value"
    = VInt v.
Proof.
  intros <-. unfold get_dsmr_object_attr, set_telegram, gas_telegram.
  cbn [telegram _obis]. rewrite lookup_singleton_eq.
  unfold getattr_or_None. by simplify_map_eq.
Qed.

(** One read of [state] after a gas telegram arrives, by cases on what the
    entity holds. *)
Lemma state_after_gas_telegram obis t v (self : DerivativeDSMREntity) :
  _obis (super self) = obis →
  DerivativeDSMREntity_state (set_telegram_d (gas_telegram obis t v) self) =
  let self1 := set_telegram_d (gas_telegram obis t v) self in
  if py_ne (VDatetime t) (_previous_timestamp self) then
    if py_eq (_previous_reading self) VNone then
      (Ok (_state (super self)),
       mkDerivativeDSMREntity (super self1) (VInt v) (VDatetime t))
    else
      match py_sub (VInt v) (_previous_reading self) with
      | Raise e => (Raise e, self1)
      | Ok diff =>
          (Ok diff,
           mkDerivativeDSMREntity (set_state diff (super self1))
             (VInt v) (VDatetime t))
      end
  else (Ok (_state (super self)), self1).
Proof.
  intros Hobis. unfold DerivativeDSMREntity_state.
  destruct (get_attr_gas obis t v (super self) Hobis) as [Hts Hval].
  cbn [set_telegram_d super _previous_timestamp _previous_reading].
  rewrite Hts, Hval. cbn [truthy andb]. reflexivity.
Qed.

(** The three ways a gas telegram can meet a derivative entity. *)
Lemma poll_baseline obis t v self rest :
  _obis (super self) = obis →
  _previous_timestamp self ≠ VDatetime t →
  _previous_reading self = VNone →
  poll self (gas_telegram obis t v :: rest) =
  Ok (_state (super self)) ::
  poll (mkDerivativeDSMREntity
          (set_telegram (gas_telegram obis t v) (super self))
          (VInt v) (VDatetime t)) rest.
Proof.
  intros Hobis Hts Hpr. cbn [poll].
  rewrite (state_after_gas_telegram obis) by done. cbv zeta.
  assert (py_ne (VDatetime t) (_previous_timestamp self) = true) as ->
    by (apply py_ne_true; congruence).
  rewrite Hpr. reflexivity.
Qed.

Lemma poll_repeat obis t v self rest :
  _obis (super self) = obis →
  _previous_timestamp self = VDatetime t →
  poll self (gas_telegram obis t v :: rest) =
  Ok (_state (super self)) ::
  poll (set_telegram_d (gas_telegram obis t v) self) rest.
Proof.
  intros Hobis Hts. cbn [poll].
  rewrite (state_after_gas_telegram obis) by done. cbv zeta.
  rewrite Hts, py_ne_refl. reflexivity.
Qed.

Lemma poll_delta obis t v w self rest :
  _obis (super self) = obis →
  _previous_timestamp self ≠ VDatetime t →
  _previous_reading self = VInt w →
  poll self (gas_telegram obis t v :: rest) =
  Ok (VInt (v - w)) ::
  poll (mkDerivativeDSMREntity
          (set_state (VInt (v - w))
             (set_telegram (gas_telegram obis t v) (super self)))
          (VInt v) (VDatetime t)) rest.
Proof.
  intros Hobis Hts Hpr. cbn [poll].
  rewrite (state_after_gas_telegram obis) by done. cbv zeta.
  assert (py_ne (VDatetime t) (_previous_timestamp self) = true) as ->
    by (apply py_ne_true; congruence).
  rewrite Hpr. reflexivity.
Qed.

(** The five readings of the spec's example, fed to an entity whose
    [_state] starts at [s0]. *)
Lemma poll_five_readings name obis s0 T1 T2 T3 :
  T1 ≠ T2 → T2 ≠ T3 →
  poll (mkDerivativeDSMREntity (mkDSMREntity name obis ∅ s0) VNone VNone)
    [gas_telegram obis T1 100; gas_telegram obis T1 100;
     gas_telegram obis T2 130; gas_telegram obis T2 130;
     gas_telegram obis T3 125]
  = [Ok s0; Ok s0; Ok (VInt 30); Ok (VInt 30); Ok (VInt (-5))].
Proof.
  intros H12 H23.
  rewrite (poll_baseline obis) by done.
  rewrite (poll_repeat obis) by done.
  rewrite (poll_delta obis T2 130 100) by (done || cbn; congruence).
  rewrite (poll_repeat obis) by done.
  rewrite (poll_delta obis T3 125 130) by (done || cbn; congruence).
  reflexivity.
Qed.

(** C1 (the code at the example's input). A derivative entity built by
    its constructor and fed the readings (T1, 100), (T1, 100), (T2, 130),
    (T2, 130), (T3, 125) reads 10, 10, 30, 30, -5: the first two reads
    give the 10 that [DSMREntity.__init__] assigns to [_state], not the
    unknown sentinel. *)
Theorem C1_readings_from_constructor name obis T1 T2 T3 :
  T1 ≠ T2 → T2 ≠ T3 →
  poll (DerivativeDSMREntity_init name obis)
    [gas_telegram obis T1 100; gas_telegram obis T1 100;
     gas_telegram obis T2 130; gas_telegram obis T2 130;
     gas_telegram obis T3 125]
  = [Ok (VInt 10); Ok (VInt 10); Ok (VInt 30); Ok (VInt 30); Ok (VInt (-5))].
Proof.
  intros H12 H23.
  unfold DerivativeDSMREntity_init, DSMREntity_init,
    class_previous_reading, class_previous_timestamp.
  rewrite (poll_baseline obis) by done.
  rewrite (poll_repeat obis) by done.
  rewrite (poll_delta obis T2 130 100) by (done || cbn; congruence).
  rewrite (poll_repeat obis) by done.
  rewrite (poll_delta obis T3 125 130) by (done || cbn; congruence).
  reflexivity.
Qed.

Lemma C1_readings_from_constructor_witness :
  poll (DerivativeDSMREntity_init "Hourly Gas Consumption" "gas")
    [gas_telegram "gas" 1 100; gas_telegram "gas" 1 100;
     gas_telegram "gas" 2 130; gas_telegram "gas" 2 130;
     gas_telegram "gas" 3 125]
  = [Ok (VInt 10); Ok (VInt 10); Ok (VInt 30); Ok (VInt 30); Ok (VInt (-5))].
Proof. apply (C1_readings_from_constructor _ _ 1 2 3); lia. Defined.

(** Had [_state] started at the class attribute [_state = STATE_UNKNOWN],
    the same readings would read unknown, unknown, 30, 30, -5. *)
Lemma readings_from_class_state name obis T1 T2 T3 :
  T1 ≠ T2 → T2 ≠ T3 →
  poll (mkDerivativeDSMREntity (mkDSMREntity name obis ∅ class_state)
          class_previous_reading class_previous_timestamp)
    [gas_telegram obis T1 100; gas_telegram obis T1 100;
     gas_telegram obis T2 130; gas_telegram obis T2 130;
     gas_telegram obis T3 125]
  = [Ok (VStr STATE_UNKNOWN); Ok (VStr STATE_UNKNOWN);
     Ok (VInt 30); Ok (VInt 30); Ok (VInt (-5))].
Proof. intros. by apply poll_five_readings. Qed.

(** The first read of the constructed entity is not the sentinel. *)
Lemma first_read_not_unknown :
  poll (DerivativeDSMREntity_init "Hourly Gas Consumption" "gas")
    [gas_telegram "gas" 1 100] ≠ [Ok (VStr STATE_UNKNOWN)].
Proof.
  rewrite (poll_baseline "gas") by done. cbn. discriminate.
Qed.

(** A reading without a stored number to subtract from raises and leaves
    the entity as it was. *)
Example derivative_state_type_error :
  let self := set_telegram_d (gas_telegram "gas" 8 130)
                (mkDerivativeDSMREntity
                   (mkDSMREntity "Hourly Gas Consumption" "gas" ∅ (VInt 30))
                   (VStr "n/a") (VDatetime 7)) in
  DerivativeDSMREntity_state self = (Raise TypeError, self).
Proof. by vm_compute. Qed.

Section Tariff.
Variable ELECTRICITY_ACTIVE_TARIFF : string.

Lemma translate_tariff_cases value :
  translate_tariff value =
    if decide (value = VStr "0002") then VStr "normal"
    else if decide (value = VStr "0001") then VStr "low"
    else VStr STATE_UNKNOWN.
Proof.
  unfold translate_tariff, py_eq.
  repeat case_bool_decide; repeat case_decide; congruence.
Qed.

(** C2. On the active-tariff channel, [state] gives "low" for the value
    "0001", "normal" for "0002" and the unknown sentinel for every other
    value, among them the [None] read when the telegram lacks the
    identifier. *)
Theorem C2_tariff_state (self : DSMREntity) :
  _obis self = ELECTRICITY_ACTIVE_TARIFF →
  let value := get_dsmr_object_attr self "value" in
  (value = VStr "0001" → DSMREntity_state ELECTRICITY_ACTIVE_TARIFF self = VStr "low")
  ∧ (value = VStr "0002" →
     DSMREntity_state ELECTRICITY_ACTIVE_TARIFF self = VStr "normal")
  ∧ (value ≠ VStr "0001" → value ≠ VStr "0002" →
     DSMREntity_state ELECTRICITY_ACTIVE_TARIFF self = VStr STATE_UNKNOWN)
  ∧ (telegram self !! _obis self = None →
     value = VNone
     ∧ DSMREntity_state ELECTRICITY_ACTIVE_TARIFF self = VStr STATE_UNKNOWN).
Proof.
  intros Hobis value. unfold DSMREntity_state. fold value.
  rewrite bool_decide_eq_true_2 by done. rewrite translate_tariff_cases.
  repeat split.
  - intros ->. by repeat case_decide.
  - intros ->. by repeat case_decide.
  - intros. by repeat case_decide.
  - subst value. by apply get_attr_missing.
  - subst value. rewrite get_attr_missing by done. by repeat case_decide.
Qed.

(** C3. When the stored telegram has no entry for the channel's
    identifier, a channel that is neither the tariff one nor a derivative
    reads the unknown sentinel and has no unit. *)
Theorem C3_missing_identifier (self : DSMREntity) :
  _obis self ≠ ELECTRICITY_ACTIVE_TARIFF →
  telegram self !! _obis self = None →
  DSMREntity_state ELECTRICITY_ACTIVE_TARIFF self = VStr STATE_UNKNOWN
  ∧ DSMREntity_unit_of_measurement self = VNone.
Proof.
  intros Hobis Hmiss. unfold DSMREntity_state, DSMREntity_unit_of_measurement.
  rewrite bool_decide_eq_false_2 by done.
  by rewrite !get_attr_missing by done.
Qed.

(** C9. When the telegram has the identifier but the value there is falsy
    (as 0 and the empty string are), such a channel reads the unknown
    sentinel, which is not that value. *)
Theorem C9_falsy_value_reads_unknown (self : DSMREntity) (o : gmap string pyval) :
  _obis self ≠ ELECTRICITY_ACTIVE_TARIFF →
  telegram self !! _obis self = Some o →
  truthy (getattr_or_None o "value") = false →
  DSMREntity_state ELECTRICITY_ACTIVE_TARIFF self = VStr STATE_UNKNOWN
  ∧ DSMREntity_state ELECTRICITY_ACTIVE_TARIFF self ≠ getattr_or_None o "value"
  ∧ truthy (VInt 0) = false ∧ truthy (VStr "") = false.
Proof.
  intros Hobis Hin Hfalsy. unfold DSMREntity_state, get_dsmr_object_attr.
  rewrite bool_decide_eq_false_2 by done. rewrite Hin, Hfalsy.
  repeat split; try done.
  intros Heq. rewrite <- Heq in Hfalsy. discriminate.
Qed.

End Tariff.

Lemma C2_tariff_state_witness :
  DSMREntity_state "tariff"
    (mkDSMREntity "Power Tariff" "tariff"
       {[ "tariff"%string := {[ "value"%string := VStr "0001" ]} ]} (VInt 10))
  = VStr "low".
Proof.
  refine (proj1 (C2_tariff_state "tariff" (mkDSMREntity _ _ _ _) _) _);
    reflexivity.
Defined.

Lemma C3_missing_identifier_witness :
  DSMREntity_state "tariff" (DSMREntity_init "Power Consumption" "usage")
    = VStr STATE_UNKNOWN
  ∧ DSMREntity_unit_of_measurement (DSMREntity_init "Power Consumption" "usage")
    = VNone.
Proof.
  apply (C3_missing_identifier "tariff"); [discriminate | reflexivity].
Defined.

Lemma C9_falsy_value_reads_unknown_witness :
  DSMREntity_state "tariff"
    (mkDSMREntity "Power Production" "delivery"
       {[ "delivery"%string := {[ "value"%string := VInt 0 ]} ]} (VInt 10))
  = VStr STATE_UNKNOWN.
Proof.
  refine (proj1 (C9_falsy_value_reads_unknown "tariff" (mkDSMREntity _ _ _ _)
                   {[ "value"%string := VInt 0 ]} _ _ _));
    [discriminate | reflexivity | reflexivity].
Defined.

(** [state] either leaves the entity as it is or took the branch guarded
    by a truthy timestamp that differs from the stored one. *)
Lemma derivative_state_frame (self : DerivativeDSMREntity) :
  let timestamp := get_dsmr_object_attr (super self) "datetime" in
  truthy timestamp && py_ne timestamp (_previous_timestamp self) = false →
  DerivativeDSMREntity_state self = (Ok (_state (super self)), self).
Proof. intros timestamp H. unfold DerivativeDSMREntity_state. fold timestamp. by rewrite H. Qed.

(** C4. When the timestamp read from the current telegram is absent or
    equal to the stored previous timestamp, [state] returns the stored
    [_state] and leaves the entity, with its previous reading, previous
    timestamp and state, as it was; whenever a read changes the entity, the
    timestamp was present and different from the stored one. *)
Theorem C4_derivative_frame (self : DerivativeDSMREntity) :
  let timestamp := get_dsmr_object_attr (super self) "datetime" in
  (timestamp = VNone ∨ timestamp = _previous_timestamp self →
   DerivativeDSMREntity_state self = (Ok (_state (super self)), self))
  ∧ ((DerivativeDSMREntity_state self).2 ≠ self →
     timestamp ≠ VNone ∧ timestamp ≠ _previous_timestamp self).
Proof.
  intros timestamp. split.
  - intros [Habs | Hsame]; apply derivative_state_frame; fold timestamp.
    + by rewrite Habs.
    + rewrite Hsame, py_ne_refl. apply andb_false_r.
  - intros Hchanged.
    destruct (truthy timestamp && py_ne timestamp (_previous_timestamp self))
      eqn:Hguard.
    + apply andb_true_iff in Hguard as [Htruthy Hne].
      split; [by apply truthy_not_None | by apply py_ne_true].
    + rewrite derivative_state_frame in Hchanged by done. done.
Qed.

Lemma C4_derivative_frame_witness :
  let self := set_telegram_d (gas_telegram "gas" 7 130)
                (mkDerivativeDSMREntity
                   (mkDSMREntity "Hourly Gas Consumption" "gas" ∅ (VInt 30))
                   (VInt 130) (VDatetime 7)) in
  DerivativeDSMREntity_state self = (Ok (VInt 30), self).
Proof.
  intros self. apply (proj1 (C4_derivative_frame self)).
  right. reflexivity.
Defined.

(** C5 as stated fails: an empty-string unit is present in the telegram,
    yet the derivative channel reports [None], not "/h". *)
Lemma C5_empty_unit_counterexample :
  let self := set_telegram_d (unit_telegram "gas" (VStr ""))
                (DerivativeDSMREntity_init "Hourly Gas Consumption" "gas") in
  get_dsmr_object_attr (super self) "unit" = VStr ""
  ∧ get_dsmr_object_attr (super self) "unit" ≠ VNone
  ∧ DerivativeDSMREntity_unit_of_measurement self = Ok VNone
  ∧ DerivativeDSMREntity_unit_of_measurement self ≠ Ok (VStr ("" ++ "/h")).
Proof. vm_compute. repeat split; discriminate. Qed.

(** C5 (amended). A derivative channel reports the base unit with "/h"
    appended when that unit is a non-empty string ("m3" gives "m3/h"), and
    [None] when the base unit is absent or the empty string. *)
Theorem C5_derivative_unit (self : DerivativeDSMREntity) :
  let unit := get_dsmr_object_attr (super self) "unit" in
  (∀ u : string, unit = VStr u → u ≠ ""%string →
     DerivativeDSMREntity_unit_of_measurement self = Ok (VStr (u ++ "/h")))
  ∧ (unit = VStr "m3" →
     DerivativeDSMREntity_unit_of_measurement self = Ok (VStr "m3/h"))
  ∧ (unit = VNone ∨ unit = VStr "" →
     DerivativeDSMREntity_unit_of_measurement self = Ok VNone).
Proof.
  intros unit. unfold DerivativeDSMREntity_unit_of_measurement. fold unit.
  repeat split.
  - intros u -> Hu. cbn. by rewrite bool_decide_eq_false_2.
  - by intros ->.
  - by intros [-> | ->].
Qed.

Lemma C5_derivative_unit_witness :
  DerivativeDSMREntity_unit_of_measurement
    (set_telegram_d (gas_telegram "gas" 7 130)
       (DerivativeDSMREntity_init "Hourly Gas Consumption" "gas"))
  = Ok (VStr "m3/h").
Proof.
  refine (proj1 (C5_derivative_unit _) "m3"%string _ _);
    [reflexivity | discriminate].
Defined.

End DsmrSpec.

(** ** Further properties of sensor/dsmr.py *)
Module DsmrMore.
Import Dsmr.

Lemma prefix_append needle haystack :
  String.prefix needle haystack = true ↔ ∃ post, haystack = needle +:+ post.
Proof.
  revert haystack.
  induction needle as [|a needle IH]; intros [|b haystack]; cbn.
  - split; [intros _; by exists ""%string | done].
  - split; [intros _; by exists (String b haystack) | done].
  - split; [done | intros [post Hpost]; discriminate].
  - destruct (Ascii.ascii_dec a b) as [->|Hne].
    + rewrite IH. split; intros [post Hpost]; exists post.
      * by rewrite Hpost.
      * change (String b haystack = String b (needle +:+ post)) in Hpost.
        by simplify_eq.
    + split; [done | intros [post Hpost]].
      change (String b haystack = String a (needle +:+ post)) in Hpost.
      by simplify_eq.
Qed.

(** [str_in] finds the needle exactly when the haystack is some text, the
    needle, and some more text. *)
Lemma str_in_append needle haystack :
  str_in needle haystack = true
  ↔ ∃ pre post, haystack = pre +:+ needle +:+ post.
Proof.
  induction haystack as [|c haystack IH].
  - cbn [str_in]. rewrite orb_false_r, prefix_append. split.
    + intros [post Hpost]. by exists ""%string, post.
    + intros (pre & post & Heq). destruct pre as [|]; [|discriminate].
      by exists post.
  - cbn [str_in]. rewrite orb_true_iff, prefix_append, IH. split.
    + intros [[post Hpost] | (pre & post & Heq)].
      * by exists ""%string, post.
      * exists (String c pre), post. by rewrite Heq.
    + intros (pre & post & Heq). destruct pre as [|c' pre].
      * left. by exists post.
      * right. exists pre, post.
        change (String c haystack = String c' (pre +:+ needle +:+ post)) in Heq.
        by simplify_eq.
Qed.

Lemma str_in_false needle haystack :
  str_in needle haystack = false
  ↔ ¬ ∃ pre post, haystack = pre +:+ needle +:+ post.
Proof. rewrite <- str_in_append. by destruct (str_in needle haystack). Qed.

(** X1. The icon is the power icon exactly when the name contains
    "Power"; the gas icon exactly when it contains "Gas" and not "Power";
    [None] exactly when it contains neither. *)
Theorem icon_by_name (self : DSMREntity) :
  let has word := ∃ pre post, _name self = pre +:+ word +:+ post in
  (DSMREntity_icon self = VStr ICON_POWER ↔ has "Power"%string)
  ∧ (DSMREntity_icon self = VStr ICON_GAS ↔ has "Gas"%string ∧ ¬ has "Power"%string)
  ∧ (DSMREntity_icon self = VNone ↔ ¬ has "Power"%string ∧ ¬ has "Gas"%string).
Proof.
  intros has. subst has. cbv beta. unfold DSMREntity_icon.
  rewrite <- !str_in_false, <- !str_in_append.
  destruct (str_in "Power" (_name self)), (str_in "Gas" (_name self));
    repeat split; try done; intros []; done.
Qed.

Section PlainState.
Variable TARIFF : string.

(** X2. [state] of a plain entity is never [None], zero or empty: it is
    the value itself when the channel is not the tariff one and the value
    is truthy, one of "low", "normal", "unknown" on the tariff channel. *)
Theorem plain_state_never_falsy (self : DSMREntity) :
  truthy (DSMREntity_state TARIFF self) = true
  ∧ (_obis self ≠ TARIFF → truthy (get_dsmr_object_attr self "value") = true →
     DSMREntity_state TARIFF self = get_dsmr_object_attr self "value")
  ∧ (_obis self = TARIFF →
     DSMREntity_state TARIFF self ∈ [VStr "low"; VStr "normal"; VStr STATE_UNKNOWN]).
Proof.
  unfold DSMREntity_state, translate_tariff. repeat split.
  - case_bool_decide.
    + by repeat destruct (py_eq _ _).
    + by destruct (truthy (get_dsmr_object_attr self "value")) eqn:Hv.
  - intros Hobis Hv. by rewrite bool_decide_eq_false_2, Hv.
  - intros Hobis. rewrite bool_decide_eq_true_2 by done.
    repeat destruct (py_eq _ _); set_solver.
Qed.

End PlainState.

Lemma plain_state_never_falsy_witness :
  DSMREntity_state "tariff"
    (mkDSMREntity "Power Consumption" "usage"
       {[ "usage"%string := {[ "value"%string := VInt 250 ]} ]} (VInt 10))
  = VInt 250.
Proof.
  refine (proj1 (proj2 (plain_state_never_falsy "tariff" (mkDSMREntity _ _ _ _)))
            _ _); [discriminate | reflexivity].
Defined.

Lemma get_attr_set_state v (self : DSMREntity) attribute :
  get_dsmr_object_attr (set_state v self) attribute
  = get_dsmr_object_attr self attribute.
Proof. done. Qed.

(** What [state] reads from the telegram is the same before and after
    the read: the read assigns neither [telegram] nor [_obis]. *)
Lemma derivative_state_keeps_base (self : DerivativeDSMREntity) :
  _name (super (DerivativeDSMREntity_state self).2) = _name (super self)
  ∧ _obis (super (DerivativeDSMREntity_state self).2) = _obis (super self)
  ∧ telegram (super (DerivativeDSMREntity_state self).2) = telegram (super self).
Proof.
  unfold DerivativeDSMREntity_state.
  destruct (truthy _ && py_ne _ _); [|done].
  destruct (py_eq _ _); [done|].
  by destruct (py_sub _ _).
Qed.

Lemma get_attr_after_state (self : DerivativeDSMREntity) attribute :
  get_dsmr_object_attr (super (DerivativeDSMREntity_state self).2) attribute
  = get_dsmr_object_attr (super self) attribute.
Proof.
  destruct (derivative_state_keeps_base self) as (_ & Hobis & Htg).
  unfold get_dsmr_object_attr. by rewrite Hobis, Htg.
Qed.

(** What a read returns is what the entity then holds as [_state]. *)
Lemma derivative_state_returns_stored (self : DerivativeDSMREntity) v :
  (DerivativeDSMREntity_state self).1 = Ok v →
  _state (super (DerivativeDSMREntity_state self).2) = v.
Proof.
  unfold DerivativeDSMREntity_state.
  destruct (truthy _ && py_ne _ _); [|by intros [= <-]].
  destruct (py_eq _ _); [by intros [= <-]|].
  destruct (py_sub _ _); [by intros [= <-] | done].
Qed.

(** X3. Reading [state] a second time, with the telegram still the same,
    gives the same result as the first read and changes nothing more; and
    a read that returns gives the [_state] the entity holds after it. *)
Theorem derivative_state_reread (self : DerivativeDSMREntity) :
  DerivativeDSMREntity_state (DerivativeDSMREntity_state self).2
  = DerivativeDSMREntity_state self
  ∧ ∀ v, (DerivativeDSMREntity_state self).1 = Ok v →
         _state (super (DerivativeDSMREntity_state self).2) = v.
Proof.
  split; [|apply derivative_state_returns_stored].
  destruct (DerivativeDSMREntity_state self) as [r self'] eqn:Hfirst.
  cbn [snd]. unfold DerivativeDSMREntity_state in Hfirst.
  destruct (truthy (get_dsmr_object_attr (super self) "datetime")) eqn:Hts;
    cbn [andb] in Hfirst.
  2: { simplify_eq. unfold DerivativeDSMREntity_state. by rewrite Hts. }
  destruct (py_ne (get_dsmr_object_attr (super self) "datetime")
              (_previous_timestamp self)) eqn:Hne.
  2: { simplify_eq. unfold DerivativeDSMREntity_state. by rewrite Hts, Hne. }
  destruct (py_eq (_previous_reading self) VNone) eqn:Hpr.
  - simplify_eq. unfold DerivativeDSMREntity_state.
    cbn [super _previous_timestamp]. by rewrite py_ne_refl, andb_false_r.
  - destruct (py_sub (get_dsmr_object_attr (super self) "value")
                (_previous_reading self)) as [diff|e] eqn:Hsub; simplify_eq.
    + unfold DerivativeDSMREntity_state.
      cbn [super _previous_timestamp].
      rewrite get_attr_set_state, py_ne_refl, andb_false_r. done.
    + unfold DerivativeDSMREntity_state. by rewrite Hts, Hne, Hpr, Hsub.
Qed.

(** X4. A read of [state] leaves the name, the icon and the unit of the
    derivative entity as they were. *)
Theorem derivative_state_keeps_presentation (self : DerivativeDSMREntity) :
  let self' := (DerivativeDSMREntity_state self).2 in
  entity_name (Derivative self') = entity_name (Derivative self)
  ∧ entity_icon (Derivative self') = entity_icon (Derivative self)
  ∧ DerivativeDSMREntity_unit_of_measurement self'
    = DerivativeDSMREntity_unit_of_measurement self.
Proof.
  intros self'. subst self'.
  destruct (derivative_state_keeps_base self) as (Hname & _ & _).
  unfold entity_name, entity_icon, DSMREntity_name, DSMREntity_icon,
    DerivativeDSMREntity_unit_of_measurement.
  cbn [entity_base]. by rewrite Hname, get_attr_after_state.
Qed.

(** X5. [state] raises exactly when the timestamp is truthy and new, a
    previous reading is stored, and the subtraction of the two readings
    raises; the entity is then left as it was. *)
Theorem derivative_state_raises (self : DerivativeDSMREntity) (e : exn) :
  let timestamp := get_dsmr_object_attr (super self) "datetime" in
  let current_reading := get_dsmr_object_attr (super self) "value" in
  ((DerivativeDSMREntity_state self).1 = Raise e
   ↔ truthy timestamp = true ∧ timestamp ≠ _previous_timestamp self
     ∧ _previous_reading self ≠ VNone
     ∧ py_sub current_reading (_previous_reading self) = Raise e)
  ∧ ((DerivativeDSMREntity_state self).1 = Raise e →
     (DerivativeDSMREntity_state self).2 = self).
Proof.
  intros timestamp current_reading.
  unfold DerivativeDSMREntity_state. fold timestamp current_reading.
  destruct (truthy timestamp) eqn:Hts; cbn [andb].
  2: { split; [split; [done | by intros (? & _)] | done]. }
  destruct (py_ne timestamp (_previous_timestamp self)) eqn:Hne.
  2: { split; [split; [done|] | done].
       intros (_ & Hdiff & _). apply py_ne_true in Hdiff. congruence. }
  apply py_ne_true in Hne.
  unfold py_eq. case_bool_decide as Hpr.
  - split; [split; [done|] | done]. by intros (_ & _ & ? & _).
  - destruct (py_sub current_reading (_previous_reading self)) as [diff|e'];
      cbn [fst snd].
    + split; [split; [done|] | done]. by intros (_ & _ & _ & ?).
    + split; [|done]. split; [by intros [= ->] | by intros (_ & _ & _ & [= ->])].
Qed.

Lemma derivative_state_raises_witness :
  let self := set_telegram_d {[ "gas"%string := {[ "datetime"%string := VDatetime 8 ]} ]}
                (mkDerivativeDSMREntity
                   (mkDSMREntity "Hourly Gas Consumption" "gas" ∅ (VInt 30))
                   (VInt 130) (VDatetime 7)) in
  DerivativeDSMREntity_state self = (Raise TypeError, self).
Proof.
  intros self.
  assert ((DerivativeDSMREntity_state self).1 = Raise TypeError) as Hraise.
  { apply (proj1 (derivative_state_raises self TypeError)).
    split; [reflexivity|]. split; [discriminate|]. split; [discriminate|].
    reflexivity. }
  pose proof (proj2 (derivative_state_raises self TypeError) Hraise) as Hsame.
  destruct (DerivativeDSMREntity_state self) as [r self']. cbn in *. congruence.
Defined.


Lemma poll_deltas obis (readings : list (Z * Z)) :
  ∀ (self : DerivativeDSMREntity) t w,
  _obis (super self) = obis →
  _previous_timestamp self = VDatetime t →
  _previous_reading self = VInt w →
  all_fresh t readings.*1 →
  poll self (map (λ r, gas_telegram obis r.1 r.2) readings)
  = map (λ d, Ok (VInt d)) (deltas w readings.*2).
Proof.
  induction readings as [|[t' v] readings IH]; intros self t w Hobis Hts Hpr Hfresh;
    [done|].
  cbn [fmap list_fmap fst all_fresh] in Hfresh. destruct Hfresh as [Hne Hfresh].
  cbn [map fst snd fmap list_fmap deltas].
  rewrite (DsmrSpec.poll_delta obis t' v w) by (done || rewrite Hts; congruence).
  f_equal. by apply (IH _ t' v).
Qed.

(** X6. Fed gas telegrams in which no two successive timestamps are equal,
    an entity without a baseline reads its stored [_state] first and then
    the difference of each reading to the one before it. *)
Theorem derivative_reads_deltas obis (self : DerivativeDSMREntity)
  (t0 v0 : Z) (readings : list (Z * Z)) :
  _obis (super self) = obis →
  _previous_reading self = VNone →
  _previous_timestamp self = VNone →
  all_fresh t0 readings.*1 →
  poll self (map (λ r, gas_telegram obis r.1 r.2) ((t0, v0) :: readings))
  = Ok (_state (super self))
    :: map (λ d, Ok (VInt d)) (deltas v0 readings.*2).
Proof.
  intros Hobis Hpr Hts Hfresh. cbn [map fst snd].
  rewrite (DsmrSpec.poll_baseline obis) by (done || by rewrite Hts).
  f_equal. by apply (poll_deltas obis readings _ t0 v0).
Qed.

Lemma derivative_reads_deltas_witness :
  poll (DerivativeDSMREntity_init "Hourly Gas Consumption" "gas")
    (map (λ r, gas_telegram "gas" r.1 r.2) [(1, 100); (2, 130); (3, 125); (1, 125)])
  = [Ok (VInt 10); Ok (VInt 30); Ok (VInt (-5)); Ok (VInt 0)].
Proof.
  refine (derivative_reads_deltas "gas" _ 1 100 [(2, 130); (3, 125); (1, 125)]
            _ _ _ _); try reflexivity.
  cbn. repeat split; discriminate.
Defined.

(** An entity that holds no reading, or a number. *)
Lemma poll_never_raises obis (readings : list (Z * Z)) :
  ∀ self : DerivativeDSMREntity,
  _obis (super self) = obis →
  (_previous_reading self = VNone ∨ ∃ w, _previous_reading self = VInt w) →
  Forall (λ r, ∃ v, r = Ok v)
    (poll self (map (λ r, gas_telegram obis r.1 r.2) readings)).
Proof.
  induction readings as [|[t v] readings IH]; intros self Hobis Hpr;
    [by apply Forall_nil|].
  cbn [map fst snd].
  destruct (decide (_previous_timestamp self = VDatetime t)) as [Hts|Hts].
  - rewrite (DsmrSpec.poll_repeat obis) by done.
    apply Forall_cons. split; [by eexists|]. by apply IH.
  - destruct Hpr as [Hpr | [w Hpr]].
    + rewrite (DsmrSpec.poll_baseline obis) by done.
      apply Forall_cons. split; [by eexists|]. apply IH; [done|]. right. by eexists.
    + rewrite (DsmrSpec.poll_delta obis t v w) by done.
      apply Forall_cons. split; [by eexists|]. apply IH; [done|]. right. by eexists.
Qed.

(** X7. Whatever the timestamps and numbers of a sequence of gas
    telegrams, no read of [state] of a freshly constructed derivative
    entity raises. *)
Theorem derivative_gas_never_raises name obis (readings : list (Z * Z)) :
  Forall (λ r, ∃ v, r = Ok v)
    (poll (DerivativeDSMREntity_init name obis)
       (map (λ r, gas_telegram obis r.1 r.2) readings)).
Proof. apply poll_never_raises; [done | by left]. Qed.



(** X9. Whatever the configured version, the platform sets up nine
    entities with nine different names, each with an icon; the first seven
    do not depend on the version; the last two are the gas reading and its
    derivative, bound to one and the same obis reference, the hourly one
    for version "4" and the plain one for any other version. *)
Theorem setup_entities (obis : obis_references) (dsmr_version : string) :
  let devices := async_setup_platform obis dsmr_version in
  length devices = 9%nat
  ∧ NoDup (map entity_name devices)
  ∧ Forall (λ device, entity_icon device ≠ VNone) devices
  ∧ take 7 devices = take 7 (async_setup_platform obis "2.2")
  ∧ ∃ gas_obis,
      drop 7 devices
      = [ Plain (DSMREntity_init "Gas Consumption" gas_obis);
          Derivative (DerivativeDSMREntity_init "Hourly Gas Consumption" gas_obis) ]
      ∧ (dsmr_version = "4"%string → gas_obis = HOURLY_GAS_METER_READING obis)
      ∧ (dsmr_version ≠ "4"%string → gas_obis = GAS_METER_READING obis).
Proof.
  intros devices. subst devices. unfold async_setup_platform.
  set (gas_obis := if bool_decide (dsmr_version = "4"%string)
                   then HOURLY_GAS_METER_READING obis
                   else GAS_METER_READING obis).
  split; [done|]. split.
  { apply (bool_decide_unpack _). by vm_compute. }
  split.
  { cbn [map obis_mapping app].
    repeat (apply Forall_cons; split;
            [intros Hicon; vm_compute in Hicon; discriminate|]).
    by apply Forall_nil. }
  split; [done|].
  exists gas_obis. split; [done|]. subst gas_obis.
  split; intros Hv; [by rewrite bool_decide_eq_true_2 | by rewrite bool_decide_eq_false_2].
Qed.

(** X10. A telegram replaces the one before it in every entity: two
    updates leave what the second alone leaves. After an update each entity
    holds the new telegram, its name is as before, and a plain channel
    (the tariff one apart) whose identifier the new telegram lacks reads
    the unknown sentinel and no unit, whatever the telegram before had. *)
Theorem update_replaces_telegram (TARIFF : string) (devices : list entity)
  (tg1 tg2 : gmap string (gmap string pyval)) :
  update_entities_telegram (update_entities_telegram devices tg1) tg2
  = update_entities_telegram devices tg2
  ∧ map entity_name (update_entities_telegram devices tg2) = map entity_name devices
  ∧ Forall (λ device, telegram (entity_base device) = tg2)
      (update_entities_telegram devices tg2)
  ∧ ∀ e, Plain e ∈ update_entities_telegram (update_entities_telegram devices tg1) tg2 →
         _obis e ≠ TARIFF → tg2 !! _obis e = None →
         DSMREntity_state TARIFF e = VStr STATE_UNKNOWN
         ∧ DSMREntity_unit_of_measurement e = VNone.
Proof.
  assert (update_entities_telegram (update_entities_telegram devices tg1) tg2
          = update_entities_telegram devices tg2) as Htwice.
  { unfold update_entities_telegram. rewrite map_map.
    apply map_ext. by intros [e|d]. }
  assert (Forall (λ device, telegram (entity_base device) = tg2)
            (update_entities_telegram devices tg2)) as Hall.
  { unfold update_entities_telegram. apply Forall_forall.
    intros device Hin. apply list_elem_of_fmap in Hin as (old & -> & _).
    by destruct old. }
  split; [done|]. split.
  { unfold update_entities_telegram. rewrite map_map.
    apply map_ext. by intros [e|d]. }
  split; [done|].
  intros e Hin Hobis Hmiss. rewrite Htwice in Hin.
  rewrite Forall_forall in Hall. specialize (Hall _ Hin). cbn in Hall.
  unfold DSMREntity_state, DSMREntity_unit_of_measurement, get_dsmr_object_attr.
  rewrite bool_decide_eq_false_2 by done. by rewrite Hall, Hmiss.
Qed.

End DsmrMore.

(** ** Properties of sensor/rflink.py *)
Module RflinkSpec.
Import Rflink.

Lemma create_entities_omap device_id packet items devices :
  create_entities device_id packet items devices
  = devices ++ omap (entity_for device_id packet) items.
Proof.
  revert devices. induction items as [|[sensor_key unit] items IH]; intros devices.
  - cbn. by rewrite app_nil_r.
  - cbn [create_entities]. rewrite IH. cbn [omap list_omap].
    unfold entity_for at 2. cbn [fst snd].
    case_bool_decide; [by rewrite <- app_assoc | done].
Qed.

(** The entities bound to one key come from the items with that key. *)
Lemma filter_value_key device_id packet (items : list (string * string)) k :
  filter (λ d, _value_key d = k) (omap (entity_for device_id packet) items)
  = omap (entity_for device_id packet) (filter (λ item, item.1 = k) items).
Proof.
  induction items as [|item items IH]; [done|].
  rewrite filter_cons. cbn [omap list_omap].
  destruct (entity_for device_id packet item) as [d|] eqn:Hd.
  - assert (_value_key d = item.1) as Hk.
    { unfold entity_for in Hd. case_bool_decide; by simplify_eq. }
    rewrite filter_cons, Hk.
    case_decide; cbn [omap list_omap]; by rewrite ?Hd, IH.
  - case_decide; cbn [omap list_omap]; by rewrite ?Hd, IH.
Qed.

Lemma filter_key_absent (items : list (string * string)) k :
  k ∉ items.*1 → filter (λ item, item.1 = k) items = [].
Proof.
  induction items as [|[k' u'] items IH]; [done|].
  cbn [fmap list_fmap fst]. rewrite not_elem_of_cons. intros [Hne Hnot].
  rewrite filter_cons_False by (cbn; congruence). by apply IH.
Qed.

Lemma filter_key_present (items : list (string * string)) k u :
  NoDup items.*1 → (k, u) ∈ items → filter (λ item, item.1 = k) items = [(k, u)].
Proof.
  induction items as [|[k' u'] items IH]; intros Hnd Hin.
  - by apply elem_of_nil in Hin.
  - cbn [fmap list_fmap fst] in Hnd. apply NoDup_cons in Hnd as [Hfresh Hnd].
    apply elem_of_cons in Hin as [Heq | Hin].
    + inversion Heq; subst k' u'. rewrite filter_cons_True by done.
      by rewrite filter_key_absent.
    + assert (k' ≠ k) as Hne.
      { intros ->. apply Hfresh. apply list_elem_of_fmap. by exists (k, u). }
      rewrite filter_cons_False by done. by apply IH.
Qed.

Lemma SENSOR_KEYS_NoDup : NoDup SENSOR_KEYS_AND_UNITS.*1.
Proof. apply (bool_decide_unpack _). by vm_compute. Qed.

Section Listener.
Variable serialize_id : gmap string pyval → string.
Variable entity_id : RflinkSensor → string.

Local Abbreviation add_new_device := (add_new_device serialize_id entity_id).
Local Abbreviation listen := (listen serialize_id entity_id).

(** The two branches of the listener. *)
Lemma add_new_device_known st packet :
  serialize_id packet ∈ KNOWN_DEVICE_IDS st → add_new_device st packet = (st, []).
Proof.
  intros Hin. unfold Rflink.add_new_device.
  by rewrite bool_decide_eq_false_2 by (by intros ?).
Qed.

Lemma add_new_device_new st packet :
  serialize_id packet ∉ KNOWN_DEVICE_IDS st →
  let devices := omap (entity_for (serialize_id packet) packet) SENSOR_KEYS_AND_UNITS in
  KNOWN_DEVICE_IDS (add_new_device st packet).1
    = KNOWN_DEVICE_IDS st ++ [serialize_id packet]
  ∧ created (add_new_device st packet).2 = devices
  ∧ (add_new_device st packet).2 ≠ [].
Proof.
  intros Hnew devices. unfold Rflink.add_new_device.
  rewrite bool_decide_eq_true_2 by done.
  rewrite create_entities_omap. cbn [app]. fold devices.
  assert (∀ l, created (map (λ device, Match_packet device packet) l) = []) as Hm.
  { intros l. induction l as [|d l IH]; [done|]. cbn. apply IH. }
  assert (∀ l ids, created (map (λ device, Match_packet device packet) l
                            ++ [Async_update_tracked_entity_ids ids]) = []) as Hu.
  { intros l ids. induction l as [|d l IH]; [done|]. cbn. apply IH. }
  destruct (new_devices_group st) as [tracking|]; cbn [fst snd].
  - repeat split; [|done].
    change (devices ++ created (map (λ device, Match_packet device packet) devices
      ++ [Async_update_tracked_entity_ids (tracking ++ map entity_id devices)])
      = devices).
    by rewrite Hu, app_nil_r.
  - repeat split; [|done].
    change (devices ++ created (map (λ device, Match_packet device packet) devices)
      = devices).
    by rewrite Hm, app_nil_r.
Qed.

(** After a run the packet's identifier is known, and nothing known
    before is lost. *)
Lemma add_new_device_records st packet :
  serialize_id packet ∈ KNOWN_DEVICE_IDS (add_new_device st packet).1.
Proof.
  destruct (decide (serialize_id packet ∈ KNOWN_DEVICE_IDS st)) as [Hin|Hnew].
  - by rewrite add_new_device_known.
  - destruct (add_new_device_new st packet Hnew) as (-> & _). set_solver.
Qed.

Lemma add_new_device_prefix st packet :
  KNOWN_DEVICE_IDS st `prefix_of` KNOWN_DEVICE_IDS (add_new_device st packet).1.
Proof.
  destruct (decide (serialize_id packet ∈ KNOWN_DEVICE_IDS st)) as [Hin|Hnew].
  - by rewrite add_new_device_known.
  - destruct (add_new_device_new st packet Hnew) as (-> & _).
    by apply prefix_app_r.
Qed.

Lemma listen_cons st packet rest :
  listen st (packet :: rest) =
  ((listen (add_new_device st packet).1 rest).1,
   (add_new_device st packet).2 :: (listen (add_new_device st packet).1 rest).2).
Proof.
  cbn [Rflink.listen]. destruct (add_new_device st packet) as [st1 calls].
  cbn [fst snd]. by destruct (listen st1 rest).
Qed.

Lemma listen_prefix packets st :
  KNOWN_DEVICE_IDS st `prefix_of` KNOWN_DEVICE_IDS (listen st packets).1.
Proof.
  revert st. induction packets as [|packet rest IH]; intros st; [done|].
  rewrite listen_cons. cbn [fst]. etrans; [apply add_new_device_prefix | apply IH].
Qed.

(** Once an identifier is known, no later run for it makes any call. *)
Lemma listen_known_silent packets st d (i : nat) packet calls :
  d ∈ KNOWN_DEVICE_IDS st →
  packets !! i = Some packet → (listen st packets).2 !! i = Some calls →
  serialize_id packet = d → calls = [].
Proof.
  revert st i. induction packets as [|p rest IH]; intros st i Hd Hp Hc Hid; [done|].
  rewrite listen_cons in Hc. cbn [snd] in Hc. destruct i as [|i]; cbn in Hp, Hc.
  - simplify_eq. by rewrite add_new_device_known.
  - eapply (IH (add_new_device st p).1 i); try done.
    eapply elem_of_prefix; [exact Hd | apply add_new_device_prefix].
Qed.

(** Among the runs of a sequence, those for identifier [d] that made a
    call. *)
Lemma creating_runs_bound packets st d :
  (d ∈ KNOWN_DEVICE_IDS st →
   filter (λ run, serialize_id run.1 = d ∧ run.2 ≠ [])
     (zip packets (listen st packets).2) = [])
  ∧ (length (filter (λ run, serialize_id run.1 = d ∧ run.2 ≠ [])
       (zip packets (listen st packets).2)) ≤ 1)%nat.
Proof.
  revert st. induction packets as [|p rest IH]; intros st; [by cbn; split; [|lia]|].
  rewrite listen_cons. cbn [snd zip zip_with].
  destruct (IH (add_new_device st p).1) as [IHknown IHle].
  split.
  - intros Hd. rewrite filter_cons. case_decide as Hrun.
    + cbn [fst snd] in Hrun. destruct Hrun as [Hid Hcalls].
      rewrite add_new_device_known in Hcalls by (by rewrite Hid). done.
    + apply IHknown. eapply elem_of_prefix; [exact Hd | apply add_new_device_prefix].
  - rewrite filter_cons. case_decide as Hrun; [|done].
    cbn [fst snd] in Hrun. destruct Hrun as [Hid _].
    rewrite IHknown; [cbn; lia|]. rewrite <- Hid. apply add_new_device_records.
Qed.

(** C6. A packet whose identifier is already known leaves the platform as
    it is and makes no call: no entity is created or registered and the
    group is not updated. So it is for the second of two packets with the
    same identifier, and along any sequence of packets at most one run per
    identifier makes a call at all. *)
Theorem C6_creation_at_most_once (st : platform) :
  (∀ packet, serialize_id packet ∈ KNOWN_DEVICE_IDS st →
     add_new_device st packet = (st, [])
     ∧ created (add_new_device st packet).2 = [])
  ∧ (∀ first second, serialize_id second = serialize_id first →
     add_new_device (add_new_device st first).1 second
       = ((add_new_device st first).1, []))
  ∧ (∀ packets d,
     length (filter (λ run, serialize_id run.1 = d ∧ run.2 ≠ [])
               (zip packets (listen st packets).2)) ≤ 1)%nat.
Proof.
  repeat split.
  - by apply add_new_device_known.
  - by rewrite add_new_device_known.
  - intros first second Hid. apply add_new_device_known.
    rewrite Hid. apply add_new_device_records.
  - intros packets d. apply creating_runs_bound.
Qed.

(** C7. For a packet of an identifier not yet known, the entities created
    are these: for each pair of the table whose key is in the packet,
    exactly one entity with that key, carrying the identifier, the key and
    the unit of the table; for a key of the table that the packet lacks,
    and for a key that is not in the table, none. *)
Theorem C7_entities_for_present_keys (st : platform) (packet : gmap string pyval) :
  serialize_id packet ∉ KNOWN_DEVICE_IDS st →
  let devices := created (add_new_device st packet).2 in
  (∀ k u, (k, u) ∈ SENSOR_KEYS_AND_UNITS → is_Some (packet !! k) →
     filter (λ d, _value_key d = k) devices
       = [mkRflinkSensor (serialize_id packet) k u])
  ∧ (∀ k, k ∈ SENSOR_KEYS_AND_UNITS.*1 → packet !! k = None →
     filter (λ d, _value_key d = k) devices = [])
  ∧ (∀ k, k ∉ SENSOR_KEYS_AND_UNITS.*1 →
     filter (λ d, _value_key d = k) devices = []).
Proof.
  intros Hnew devices.
  destruct (add_new_device_new st packet Hnew) as (_ & Hcreated & _).
  subst devices. rewrite Hcreated. repeat split.
  - intros k u Hin Hpresent. rewrite filter_value_key.
    rewrite (filter_key_present _ k u SENSOR_KEYS_NoDup Hin).
    cbn [omap list_omap]. unfold entity_for. cbn [fst snd].
    by rewrite bool_decide_eq_true_2.
  - intros k Hin Habsent. rewrite filter_value_key.
    apply list_elem_of_fmap in Hin as ([k' u] & -> & Hin). cbn [fst] in *.
    rewrite (filter_key_present _ k' u SENSOR_KEYS_NoDup Hin).
    cbn [omap list_omap]. unfold entity_for. cbn [fst snd].
    rewrite bool_decide_eq_false_2; [done|]. rewrite Habsent. by intros [? ?].
  - intros k Hnot. rewrite filter_value_key.
    by rewrite filter_key_absent.
Qed.

(** C8. A run of the listener leaves [KNOWN_DEVICE_IDS] as it is or
    appends the one identifier of the packet, which was not in it; along
    any sequence of packets the list only grows at its end, so no
    identifier is ever removed. *)
Theorem C8_known_ids_append_only (st : platform) :
  (∀ packet,
     KNOWN_DEVICE_IDS (add_new_device st packet).1 = KNOWN_DEVICE_IDS st
     ∨ ((serialize_id packet ∉ KNOWN_DEVICE_IDS st)
        ∧ KNOWN_DEVICE_IDS (add_new_device st packet).1
          = KNOWN_DEVICE_IDS st ++ [serialize_id packet]))
  ∧ (∀ packets,
     KNOWN_DEVICE_IDS st `prefix_of` KNOWN_DEVICE_IDS (listen st packets).1)
  ∧ (∀ packets d, d ∈ KNOWN_DEVICE_IDS st →
     d ∈ KNOWN_DEVICE_IDS (listen st packets).1).
Proof.
  repeat split.
  - intros packet.
    destruct (decide (serialize_id packet ∈ KNOWN_DEVICE_IDS st)) as [Hin|Hnew].
    + left. by rewrite add_new_device_known.
    + right. split; [done|]. by destruct (add_new_device_new st packet Hnew).
  - intros packets. apply listen_prefix.
  - intros packets d Hd. eapply elem_of_prefix; [exact Hd | apply listen_prefix].
Qed.

(** C10. When the first packet of an identifier has none of the keys of
    the table, the run still records the identifier and creates no
    entity; after that no packet of that identifier, wherever it comes in
    what follows, makes the listener create anything. *)
Theorem C10_empty_first_packet_blocks (st : platform) (packet : gmap string pyval) :
  serialize_id packet ∉ KNOWN_DEVICE_IDS st →
  (∀ k, k ∈ SENSOR_KEYS_AND_UNITS.*1 → packet !! k = None) →
  let st1 := (add_new_device st packet).1 in
  serialize_id packet ∈ KNOWN_DEVICE_IDS st1
  ∧ created (add_new_device st packet).2 = []
  ∧ ∀ later (i : nat) p calls,
      later !! i = Some p → (listen st1 later).2 !! i = Some calls →
      serialize_id p = serialize_id packet →
      calls = [] ∧ created calls = [].
Proof.
  intros Hnew Hnone st1. repeat split.
  - apply add_new_device_records.
  - destruct (add_new_device_new st packet Hnew) as (_ & -> & _).
    assert (∀ items : list (string * string),
              (∀ k, k ∈ items.*1 → packet !! k = None) →
              omap (entity_for (serialize_id packet) packet) items = []) as Hempty.
    { induction items as [|[k u] items IH]; intros Hall; [done|].
      cbn [omap list_omap]. unfold entity_for at 1. cbn [fst snd].
      rewrite bool_decide_eq_false_2.
      - apply IH. intros k' Hk'. apply Hall. cbn. by right.
      - rewrite (Hall k) by (cbn; left). by intros [? ?]. }
    by apply Hempty.
  - eapply listen_known_silent; try done. apply add_new_device_records.
  - assert (calls = []) as ->; [|done].
    eapply listen_known_silent; try done. apply add_new_device_records.
Qed.

End Listener.

Lemma C6_creation_at_most_once_witness :
  let serialize_id := λ packet : gmap string pyval,
        match packet !! "id"%string with Some (VStr s) => s | _ => ""%string end in
  let packet : gmap string pyval :=
        {[ "id"%string := VStr "oregon_1" ; "temperature"%string := VInt 21 ]} in
  add_new_device serialize_id _unit (mkPlatform ["oregon_1"%string] (Some [])) packet
  = (mkPlatform ["oregon_1"%string] (Some []), []).
Proof.
  intros serialize_id packet.
  refine (proj1 (proj1 (C6_creation_at_most_once serialize_id _unit _) packet _)).
  apply (bool_decide_unpack _). by vm_compute.
Defined.

Lemma C7_entities_for_present_keys_witness :
  let serialize_id := λ packet : gmap string pyval,
        match packet !! "id"%string with Some (VStr s) => s | _ => ""%string end in
  let packet : gmap string pyval :=
        {[ "id"%string := VStr "oregon_1" ; "temperature"%string := VInt 21 ]} in
  filter (λ d, _value_key d = "temperature"%string)
    (created (add_new_device serialize_id _unit (mkPlatform [] None) packet).2)
  = [mkRflinkSensor "oregon_1" "temperature" "°C"].
Proof.
  intros serialize_id packet.
  refine (proj1 (C7_entities_for_present_keys serialize_id _unit
                   (mkPlatform [] None) packet _) _ _ _ _).
  - apply (bool_decide_unpack _). by vm_compute.
  - apply (bool_decide_unpack _). by vm_compute.
  - by eexists.
Defined.

Lemma C8_known_ids_append_only_witness :
  let serialize_id := λ packet : gmap string pyval,
        match packet !! "id"%string with Some (VStr s) => s | _ => ""%string end in
  "oregon_1"%string ∈
    KNOWN_DEVICE_IDS
      (listen serialize_id _unit (mkPlatform ["oregon_1"%string] None)
         [ {[ "id"%string := VStr "oregon_2" ]} ; {[ "id"%string := VStr "oregon_1" ]} ]).1.
Proof.
  intros serialize_id.
  refine (proj2 (proj2 (C8_known_ids_append_only serialize_id _unit _)) _ _ _).
  apply (bool_decide_unpack _). by vm_compute.
Defined.

Lemma C10_empty_first_packet_blocks_witness :
  let serialize_id := λ packet : gmap string pyval,
        match packet !! "id"%string with Some (VStr s) => s | _ => ""%string end in
  let first : gmap string pyval :=
        {[ "id"%string := VStr "oregon_1" ; "battery"%string := VStr "ok" ]} in
  let st1 := (add_new_device serialize_id _unit (mkPlatform [] (Some [])) first).1 in
  "oregon_1"%string ∈ KNOWN_DEVICE_IDS st1
  ∧ created (add_new_device serialize_id _unit (mkPlatform [] (Some [])) first).2 = []
  ∧ ∀ later (i : nat) p calls,
      later !! i = Some p →
      (listen serialize_id _unit st1 later).2 !! i = Some calls →
      serialize_id p = "oregon_1"%string →
      calls = [] ∧ created calls = [].
Proof.
  intros serialize_id first.
  refine (C10_empty_first_packet_blocks serialize_id _unit
            (mkPlatform [] (Some [])) first _ _).
  - apply (bool_decide_unpack _). by vm_compute.
  - intros k Hk.
    apply list_elem_of_fmap in Hk as ([k' u] & -> & Hin).
    repeat (apply elem_of_cons in Hin as [Heq | Hin];
            [inversion Heq; subst; reflexivity|]).
    by apply elem_of_nil in Hin.
Defined.

(** A first packet with a temperature, for a platform with a group. *)
Example add_new_device_first_packet :
  let serialize_id := λ packet : gmap string pyval,
        match packet !! "id"%string with Some (VStr s) => s | _ => ""%string end in
  let packet : gmap string pyval :=
        {[ "id"%string := VStr "oregon_1" ; "temperature"%string := VInt 21 ]} in
  let sensor := mkRflinkSensor "oregon_1" "temperature" "°C" in
  add_new_device serialize_id _value_key (mkPlatform [] (Some ["sensor.old"%string])) packet
  = (mkPlatform ["oregon_1"%string] (Some ["sensor.old"; "temperature"]%string),
     [Async_add_devices [sensor]; Match_packet sensor packet;
      Async_update_tracked_entity_ids ["sensor.old"; "temperature"]%string]).
Proof. by vm_compute. Qed.

End RflinkSpec.

(** ** Further properties of sensor/rflink.py *)
Module RflinkMore.
Import Rflink.

Lemma filter_none {A} (P : A → Prop) `{∀ x, Decision (P x)} (l : list A) :
  (∀ x, x ∈ l → ¬ P x) → filter P l = [].
Proof.
  intros Hnone. destruct (filter P l) as [|x l'] eqn:Hf; [done|].
  assert (x ∈ filter P l) as Hx by (rewrite Hf; by left).
  apply list_elem_of_filter in Hx as [HP Hin]. by destruct (Hnone x Hin).
Qed.

Lemma entity_for_Some device_id packet item device :
  entity_for device_id packet item = Some device →
  device = mkRflinkSensor device_id item.1 item.2 ∧ is_Some (packet !! item.1).
Proof. unfold entity_for. case_bool_decide; [|done]. by intros [= <-]. Qed.

Lemma created_entity device_id packet (items : list (string * string)) device :
  device ∈ omap (entity_for device_id packet) items →
  ∃ item, item ∈ items ∧ device = mkRflinkSensor device_id item.1 item.2
          ∧ is_Some (packet !! item.1).
Proof.
  intros Hin. apply list_elem_of_omap in Hin as (item & Hitem & Hfor).
  exists item. split; [done|]. by apply entity_for_Some.
Qed.

Lemma created_NoDup device_id packet (items : list (string * string)) :
  NoDup items.*1 → NoDup (omap (entity_for device_id packet) items).
Proof.
  induction items as [|item items IH]; intros Hnd; [by apply NoDup_nil|].
  cbn [fmap list_fmap] in Hnd. apply NoDup_cons in Hnd as [Hfresh Hnd].
  cbn [omap list_omap].
  destruct (entity_for device_id packet item) as [device|] eqn:Hfor; [|by apply IH].
  apply NoDup_cons. split; [|by apply IH].
  intros Hin. apply created_entity in Hin as (item' & Hin' & Heq & _).
  apply entity_for_Some in Hfor as [-> _]. simplify_eq.
  apply Hfresh. apply list_elem_of_fmap. by exists item'.
Qed.

Lemma created_length device_id packet (items : list (string * string)) :
  (length (omap (entity_for device_id packet) items) ≤ length items)%nat.
Proof.
  induction items as [|item items IH]; [done|]. cbn [omap list_omap].
  destruct (entity_for device_id packet item); cbn; lia.
Qed.

Section Listener.
Variable serialize_id : gmap string pyval → string.
Variable entity_id : RflinkSensor → string.

Local Abbreviation add_new_device := (add_new_device serialize_id entity_id).
Local Abbreviation listen := (listen serialize_id entity_id).

(** The calls of a run for an identifier that is not known yet. *)
Lemma add_new_device_calls st packet :
  serialize_id packet ∉ KNOWN_DEVICE_IDS st →
  let devices := omap (entity_for (serialize_id packet) packet) SENSOR_KEYS_AND_UNITS in
  (add_new_device st packet).2
  = Async_add_devices devices
    :: map (λ device, Match_packet device packet) devices
    ++ match new_devices_group st with
       | Some tracking =>
           [Async_update_tracked_entity_ids (tracking ++ map entity_id devices)]
       | None => []
       end.
Proof.
  intros Hnew devices. unfold Rflink.add_new_device.
  rewrite bool_decide_eq_true_2 by done.
  rewrite RflinkSpec.create_entities_omap. cbn [app]. fold devices.
  destruct (new_devices_group st); cbn [snd]; [done|]. by rewrite app_nil_r.
Qed.

Lemma matched_calls packet devices tail :
  (∀ c, c ∈ tail → ∀ d p, c ≠ Match_packet d p) →
  matched (map (λ device, Match_packet device packet) devices ++ tail)
  = map (λ device, (device, packet)) devices.
Proof.
  intros Htail. induction devices as [|d devices IH].
  - cbn [map app]. induction tail as [|c tail IHt]; [done|].
    unfold matched. cbn [omap list_omap].
    destruct c as [ds|d p|ids].
    + apply IHt. intros c Hc. apply Htail. by right.
    + exfalso. by eapply (Htail (Match_packet d p)); [left|].
    + apply IHt. intros c Hc. apply Htail. by right.
  - cbn [map app]. unfold matched. cbn [omap list_omap]. f_equal. apply IH.
Qed.

Lemma matched_run st packet :
  matched (add_new_device st packet).2
  = map (λ device, (device, packet)) (created (add_new_device st packet).2).
Proof.
  destruct (decide (serialize_id packet ∈ KNOWN_DEVICE_IDS st)) as [Hin|Hnew].
  { by rewrite RflinkSpec.add_new_device_known. }
  destruct (RflinkSpec.add_new_device_new serialize_id entity_id st packet Hnew)
    as (_ & Hcreated & _).
  rewrite Hcreated. rewrite (add_new_device_calls st packet Hnew).
  unfold matched at 1. cbn [omap list_omap]. apply matched_calls.
  intros c Hc d p. destruct (new_devices_group st).
  - apply list_elem_of_singleton in Hc as ->. done.
  - by apply elem_of_nil in Hc.
Qed.

(** X11. The entities a run creates are handed the packet that made
    them, one [match_packet] call each, and each finds its key there:
    [_handle_packet] does not raise and leaves the value of the packet
    under that key as the state. *)
Theorem new_entities_take_packet (st : platform) (packet : gmap string pyval) :
  let calls := (add_new_device st packet).2 in
  matched calls = map (λ device, (device, packet)) (created calls)
  ∧ ∀ device s0, device ∈ created calls →
      ∃ v, packet !! _value_key device = Some v
           ∧ _handle_packet (mkRflinkSensorState device s0) packet
             = Handled (mkRflinkSensorState device v)
           ∧ state (mkRflinkSensorState device v) = v.
Proof.
  intros calls. subst calls. split; [apply matched_run|].
  intros device s0 Hdev.
  destruct (decide (serialize_id packet ∈ KNOWN_DEVICE_IDS st)) as [Hin|Hnew].
  { rewrite RflinkSpec.add_new_device_known in Hdev by done.
    by apply elem_of_nil in Hdev. }
  destruct (RflinkSpec.add_new_device_new serialize_id entity_id st packet Hnew)
    as (_ & Hcreated & _).
  rewrite Hcreated in Hdev.
  apply created_entity in Hdev as (item & _ & -> & [v Hv]).
  exists v. unfold _handle_packet. cbn [sensor _value_key]. by rewrite Hv.
Qed.

(** Every entity a sequence of runs creates carries an identifier that was
    not known at the start, and no entity comes twice. *)
Lemma listen_created_fresh packets :
  ∀ st,
  NoDup (concat (created <$> (listen st packets).2))
  ∧ ∀ device, device ∈ concat (created <$> (listen st packets).2) →
              _device_id device ∉ KNOWN_DEVICE_IDS st.
Proof.
  induction packets as [|packet rest IH]; intros st.
  { cbn. split; [by apply NoDup_nil | intros d Hd; by apply elem_of_nil in Hd]. }
  rewrite RflinkSpec.listen_cons. cbn [snd fmap list_fmap concat].
  destruct (decide (serialize_id packet ∈ KNOWN_DEVICE_IDS st)) as [Hin|Hnew].
  { rewrite RflinkSpec.add_new_device_known by done. cbn [fst snd created]. apply IH. }
  destruct (RflinkSpec.add_new_device_new serialize_id entity_id st packet Hnew)
    as (Hknown & Hcreated & _).
  destruct (IH (add_new_device st packet).1) as [IHnd IHfresh].
  rewrite Hcreated. rewrite Hknown in IHfresh.
  assert (∀ device,
            device ∈ omap (entity_for (serialize_id packet) packet) SENSOR_KEYS_AND_UNITS →
            _device_id device = serialize_id packet) as Hid.
  { intros device Hdev. by apply created_entity in Hdev as (item & _ & -> & _). }
  split.
  - apply NoDup_app. split; [apply created_NoDup, RflinkSpec.SENSOR_KEYS_NoDup|].
    split; [|done]. intros device Hdev Hlater.
    apply (IHfresh device Hlater). rewrite (Hid device Hdev).
    apply elem_of_app. right. by left.
  - intros device Hdev. apply elem_of_app in Hdev as [Hdev|Hdev].
    + by rewrite (Hid device Hdev).
    + intros Hk. apply (IHfresh device Hdev). apply elem_of_app. by left.
Qed.

(** X12. Over any sequence of packets, from any set of known identifiers,
    the listener never creates the same entity twice, and it creates none
    for an identifier that was known at the start. *)
Theorem no_entity_created_twice (st : platform) (packets : list (gmap string pyval)) :
  let entities := concat (created <$> (listen st packets).2) in
  NoDup entities
  ∧ NoDup (map (λ device, (_device_id device, _value_key device)) entities)
  ∧ ∀ device, device ∈ entities → _device_id device ∉ KNOWN_DEVICE_IDS st.
Proof.
  intros entities. subst entities.
  destruct (listen_created_fresh packets st) as [Hnd Hfresh].
  split; [done|]. split; [|done].
  (* the unit is that of the table, so identifier and key tell entities apart *)
  assert (∀ device, device ∈ concat (created <$> (listen st packets).2) →
            ∃ item, item ∈ SENSOR_KEYS_AND_UNITS
                    ∧ _value_key device = item.1 ∧ _unit device = item.2) as Htable.
  { clear Hnd Hfresh. revert st.
    induction packets as [|packet rest IH]; intros st device Hdev.
    { by apply elem_of_nil in Hdev. }
    rewrite RflinkSpec.listen_cons in Hdev. cbn [snd fmap list_fmap concat] in Hdev.
    apply elem_of_app in Hdev as [Hdev|Hdev]; [|by eapply IH].
    destruct (decide (serialize_id packet ∈ KNOWN_DEVICE_IDS st)) as [Hin|Hnew].
    { rewrite RflinkSpec.add_new_device_known in Hdev by done.
      by apply elem_of_nil in Hdev. }
    destruct (RflinkSpec.add_new_device_new serialize_id entity_id st packet Hnew)
      as (_ & Hcreated & _).
    rewrite Hcreated in Hdev.
    apply created_entity in Hdev as (item & Hitem & -> & _). by exists item. }
  apply NoDup_fmap_2_strong; [|done].
  intros d1 d2 Hd1 Hd2 Heq. simplify_eq.
  destruct (Htable d1 Hd1) as (i1 & Hi1 & Hk1 & Hu1).
  destruct (Htable d2 Hd2) as (i2 & Hi2 & Hk2 & Hu2).
  assert (i1 = i2) as ->.
  { destruct i1 as [k1 u1], i2 as [k2 u2]. cbn in *.
    assert (k1 = k2) as -> by congruence.
    pose proof (RflinkSpec.filter_key_present _ k2 u1 RflinkSpec.SENSOR_KEYS_NoDup Hi1) as H1.
    pose proof (RflinkSpec.filter_key_present _ k2 u2 RflinkSpec.SENSOR_KEYS_NoDup Hi2) as H2.
    congruence. }
  destruct d1, d2. cbn in *. congruence.
Qed.

(** X13. Over any sequence of packets, the entities created for one
    identifier are never more than the table has keys. *)
Theorem entities_per_identifier_bounded (packets : list (gmap string pyval)) :
  ∀ (st : platform) (d : string),
  (length (filter (λ device, _device_id device = d)
             (concat (created <$> (listen st packets).2)))
   ≤ length SENSOR_KEYS_AND_UNITS)%nat.
Proof.
  induction packets as [|packet rest IH]; intros st d; [cbn; lia|].
  rewrite RflinkSpec.listen_cons. cbn [snd fmap list_fmap concat].
  destruct (decide (serialize_id packet ∈ KNOWN_DEVICE_IDS st)) as [Hin|Hnew].
  { rewrite RflinkSpec.add_new_device_known by done. cbn [fst snd created]. apply IH. }
  destruct (RflinkSpec.add_new_device_new serialize_id entity_id st packet Hnew)
    as (Hknown & Hcreated & _).
  rewrite Hcreated, filter_app, length_app.
  destruct (decide (serialize_id packet = d)) as [Hd|Hd].
  - (* the identifier of this packet: nothing more comes for it *)
    assert (filter (λ device, _device_id device = d)
              (concat (created <$> (listen (add_new_device st packet).1 rest).2)) = [])
      as ->.
    { apply filter_none. intros device Hdev Hid.
      destruct (listen_created_fresh rest (add_new_device st packet).1) as [_ Hfresh].
      apply (Hfresh device Hdev). rewrite Hknown, Hid, <- Hd.
      apply elem_of_app. right. by left. }
    cbn [length]. rewrite Nat.add_0_r.
    etrans; [apply length_filter | apply created_length].
  - (* another identifier: this run adds nothing for [d] *)
    assert (filter (λ device, _device_id device = d)
              (omap (entity_for (serialize_id packet) packet) SENSOR_KEYS_AND_UNITS) = [])
      as ->.
    { apply filter_none. intros device Hdev Hid.
      apply created_entity in Hdev as (item & _ & -> & _). by apply Hd. }
    cbn [length]. apply IH.
Qed.

Lemma add_new_device_known_ids st packet d :
  d ∈ KNOWN_DEVICE_IDS (add_new_device st packet).1
  ↔ d ∈ KNOWN_DEVICE_IDS st ∨ d = serialize_id packet.
Proof.
  destruct (decide (serialize_id packet ∈ KNOWN_DEVICE_IDS st)) as [Hin|Hnew].
  - rewrite RflinkSpec.add_new_device_known by done. cbn [fst].
    split; [by left | by intros [?| ->]].
  - destruct (RflinkSpec.add_new_device_new serialize_id entity_id st packet Hnew)
      as (-> & _).
    rewrite elem_of_app, list_elem_of_singleton. done.
Qed.

(** X14. After any sequence of packets the known identifiers are those
    known before and those of the packets, and nothing else; if the list
    had no identifier twice, it still has none twice. *)
Theorem known_ids_after_listen (packets : list (gmap string pyval)) :
  ∀ st : platform,
  (∀ d, d ∈ KNOWN_DEVICE_IDS (listen st packets).1
        ↔ d ∈ KNOWN_DEVICE_IDS st ∨ d ∈ serialize_id <$> packets)
  ∧ (NoDup (KNOWN_DEVICE_IDS st) → NoDup (KNOWN_DEVICE_IDS (listen st packets).1)).
Proof.
  induction packets as [|packet rest IH]; intros st.
  { cbn. split; [|done]. intros d. split; [by left|].
    intros [?|Hd]; [done | by apply elem_of_nil in Hd]. }
  rewrite RflinkSpec.listen_cons. cbn [fst].
  destruct (IH (add_new_device st packet).1) as [IHmem IHnd]. split.
  - intros d. rewrite IHmem, add_new_device_known_ids.
    cbn [fmap list_fmap]. rewrite elem_of_cons. tauto.
  - intros Hnd. apply IHnd.
    destruct (decide (serialize_id packet ∈ KNOWN_DEVICE_IDS st)) as [Hin|Hnew].
    + by rewrite RflinkSpec.add_new_device_known.
    + destruct (RflinkSpec.add_new_device_new serialize_id entity_id st packet Hnew)
        as (-> & _).
      apply NoDup_app. split; [done|]. split; [|apply NoDup_singleton].
      intros x Hx Hx'. apply list_elem_of_singleton in Hx' as ->. done.
Qed.

(** The group has no part in what a run records, creates and dispatches. *)
Lemma add_new_device_group_blind known g g' packet :
  KNOWN_DEVICE_IDS (add_new_device (mkPlatform known g) packet).1
  = KNOWN_DEVICE_IDS (add_new_device (mkPlatform known g') packet).1
  ∧ created (add_new_device (mkPlatform known g) packet).2
    = created (add_new_device (mkPlatform known g') packet).2
  ∧ matched (add_new_device (mkPlatform known g) packet).2
    = matched (add_new_device (mkPlatform known g') packet).2.
Proof.
  destruct (decide (serialize_id packet ∈ known)) as [Hin|Hnew].
  { by rewrite !RflinkSpec.add_new_device_known. }
  destruct (RflinkSpec.add_new_device_new serialize_id entity_id
              (mkPlatform known g) packet Hnew) as (-> & -> & _).
  destruct (RflinkSpec.add_new_device_new serialize_id entity_id
              (mkPlatform known g') packet Hnew) as (-> & -> & _).
  split; [done|]. split; [done|]. rewrite !matched_run.
  destruct (RflinkSpec.add_new_device_new serialize_id entity_id
              (mkPlatform known g) packet Hnew) as (_ & -> & _).
  destruct (RflinkSpec.add_new_device_new serialize_id entity_id
              (mkPlatform known g') packet Hnew) as (_ & -> & _).
  done.
Qed.

Lemma no_group_no_update packets :
  ∀ known,
  Forall (λ calls, group_updates calls = []) (listen (mkPlatform known None) packets).2
  ∧ new_devices_group (listen (mkPlatform known None) packets).1 = None.
Proof.
  induction packets as [|packet rest IH]; intros known; [by split; [apply Forall_nil|]|].
  rewrite RflinkSpec.listen_cons. cbn [fst snd].
  assert (∃ known1, (add_new_device (mkPlatform known None) packet).1
                    = mkPlatform known1 None
                    ∧ group_updates (add_new_device (mkPlatform known None) packet).2 = [])
    as (known1 & -> & Hnone).
  { destruct (decide (serialize_id packet ∈ known)) as [Hin|Hnew].
    - exists known. by rewrite RflinkSpec.add_new_device_known.
    - exists (known ++ [serialize_id packet]).
      rewrite (add_new_device_calls (mkPlatform known None) packet Hnew).
      cbn [new_devices_group].
      unfold Rflink.add_new_device. rewrite bool_decide_eq_true_2 by done.
      cbn [KNOWN_DEVICE_IDS new_devices_group fst]. split; [done|].
      rewrite app_nil_r. unfold group_updates. cbn [omap list_omap].
      induction (omap _ SENSOR_KEYS_AND_UNITS) as [|d ds IHd]; [done|]. apply IHd. }
  destruct (IH known1) as [IHall IHgroup].
  split; [|done]. apply Forall_cons. by split.
Qed.

(** X15. Whether and what group is configured makes no difference to the
    identifiers recorded, to the entities created and to the packets
    dispatched to them, along any sequence of packets; and without a group
    no run ever calls the group update. *)
Theorem group_does_not_change_discovery (packets : list (gmap string pyval)) :
  ∀ (known : list string) (g g' : option (list string)),
  KNOWN_DEVICE_IDS (listen (mkPlatform known g) packets).1
  = KNOWN_DEVICE_IDS (listen (mkPlatform known g') packets).1
  ∧ created <$> (listen (mkPlatform known g) packets).2
    = created <$> (listen (mkPlatform known g') packets).2
  ∧ matched <$> (listen (mkPlatform known g) packets).2
    = matched <$> (listen (mkPlatform known g') packets).2
  ∧ Forall (λ calls, group_updates calls = [])
      (listen (mkPlatform known None) packets).2.
Proof.
  induction packets as [|packet rest IH]; intros known g g'.
  { cbn. by repeat split; try apply Forall_nil. }
  split; [|split; [|split]]; [| | |apply no_group_no_update].
  all: rewrite !RflinkSpec.listen_cons; cbn [fst snd fmap list_fmap].
  all: destruct (add_new_device_group_blind known g g' packet) as (Hk & Hc & Hm).
  all: destruct (add_new_device (mkPlatform known g) packet).1 as [k1 g1].
  all: destruct (add_new_device (mkPlatform known g') packet).1 as [k2 g2].
  all: cbn [KNOWN_DEVICE_IDS] in Hk; subst k2.
  all: destruct (IH k1 g1 g2) as (IHk & IHc & IHm & _).
  - done.
  - by rewrite Hc, IHc.
  - by rewrite Hm, IHm.
Qed.



End Listener.

Lemma new_entities_take_packet_witness :
  let serialize_id := λ packet : gmap string pyval,
        match packet !! "id"%string with Some (VStr s) => s | _ => ""%string end in
  let packet : gmap string pyval :=
        {[ "id"%string := VStr "oregon_1" ; "humidity"%string := VInt 45 ]} in
  ∃ v, packet !! "humidity"%string = Some v
       ∧ _handle_packet
           (mkRflinkSensorState (mkRflinkSensor "oregon_1" "humidity" "%") VNone) packet
         = Handled (mkRflinkSensorState (mkRflinkSensor "oregon_1" "humidity" "%") v)
       ∧ state (mkRflinkSensorState (mkRflinkSensor "oregon_1" "humidity" "%") v) = v.
Proof.
  intros serialize_id packet.
  refine (proj2 (new_entities_take_packet serialize_id _value_key
                   (mkPlatform [] None) packet)
            (mkRflinkSensor "oregon_1" "humidity" "%") VNone _).
  apply (bool_decide_unpack _). by vm_compute.
Defined.

Lemma known_ids_after_listen_witness :
  let serialize_id := λ packet : gmap string pyval,
        match packet !! "id"%string with Some (VStr s) => s | _ => ""%string end in
  NoDup (KNOWN_DEVICE_IDS
           (listen serialize_id _value_key (mkPlatform ["oregon_1"%string] None)
              [ {[ "id"%string := VStr "oregon_2" ]} ; {[ "id"%string := VStr "oregon_1" ]};
                {[ "id"%string := VStr "oregon_2" ]} ]).1).
Proof.
  intros serialize_id.
  refine (proj2 (known_ids_after_listen serialize_id _value_key _ _) _).
  apply NoDup_singleton.
Defined.


End RflinkMore.
